(** * The tab state machines of goread

    A shallow embedding of the two tab variants of goread:
    - the feed tab [RssFeedTab] (feed package, [Update] and [loadTab]);
    - the category tab [Model] (internal/model/tab/category/category.go).

    The Go value receivers ([func (r RssFeedTab) Update]) copy the tab, so each
    [Update] is a pure function from the old tab to the new tab and the
    returned command.  Widgets of the charmbracelet libraries (list, viewport,
    spinner) are external: their [Update] functions are section variables,
    their data is kept to the fields the tabs read or write. *)

From Stdlib Require Import String Ascii ZArith List Bool Lia.
Import ListNotations.
Open Scope string_scope.
Open Scope Z_scope.

(** ** Shared data *)

(** [tab.Type] of internal/model/tab/tab.go. *)
Inductive TabType := Welcome | Feed | Category.

(** Modelled from the spec: the display item of [simpleList.ListItem] /
    [simplelist.Item] (package internal/list, not in the sources): an identity
    string ([FilterValue]), a short description and a long-form body
    ([GetContent]). *)
Record ListItem := mkListItem {
  ItemTitle : string;
  Desc : string;
  Content : string
}.

Definition FilterValue (i : ListItem) : string := ItemTitle i.
Definition Description (i : ListItem) : string := Desc i.
Definition GetContent (i : ListItem) : string := Content i.

(** The kind of item the backend creates, edits or deletes. *)
Inductive ItemKind := BackendCategory | BackendFeed.

(** [tea.Cmd]: the commands the tabs return.  [CmdNil] is Go's [nil];
    [CmdNewTab] is [tab.NewTab]; [CmdNewItem] and [CmdDeleteItem] are the
    requests [backend.NewItem] and [backend.DeleteItem]; [CmdWidget n] stands
    for a command produced by a widget (a spinner tick, ...). *)
Inductive Cmd :=
| CmdNil
| CmdNewTab (title : string) (ty : TabType)
| CmdNewItem (kind : ItemKind) (isNew : bool) (path : list string)
             (fields : option (list string))
| CmdDeleteItem (kind : ItemKind) (name : string)
| CmdWidget (n : nat).

(** Modelled from the spec: [tea.Msg] as the tabs see it.  The fetch-success
    message [backend.FetchSuccessMessage] (backend package, not in the
    sources) carries a title and the fetched items ([FetchSuccess{title,
    items}] of the spec); a key message is known by its [String()]; every
    other message (spinner ticks, window sizes, ...) is [OtherMsg]. *)
Inductive Msg :=
| FetchSuccess (title : string) (items : list ListItem)
| KeyMsg (key : string)
| OtherMsg (n : nat).

(** The outcome of a Go call: it returns, or it panics (a failed type
    assertion, ...). *)
Inductive outcome (A : Type) :=
| Return (a : A)
| Panic (reason : string).
Arguments Return {A} a.
Arguments Panic {A} reason.

(** The globals [style.WindowWidth] and [style.WindowHeight]. *)
Record Window := mkWindow {
  WindowWidth : Z;
  WindowHeight : Z
}.

(** ** The feed tab *)
Module FeedTab.

(** [SelectedPane]: the constants [articlesList] and [articlesPreview]. *)
Inductive SelectedPane := articlesList | articlesPreview.

(** The fields of a bubbles [list.Model] the tab uses.  [list.New(items, d,
    w, h)] starts with the cursor on the first item. *)
Record ListModel := mkListModel {
  items : list ListItem;
  lindex : Z;
  lwidth : Z;
  lheight : Z
}.

Definition list_New (its : list ListItem) (w h : Z) : ListModel :=
  mkListModel its 0 w h.

(** [list.Model.SelectedItem]: [nil] when the cursor is outside the items. *)
Definition SelectedItem (l : ListModel) : option ListItem :=
  if lindex l <? 0 then None else nth_error (items l) (Z.to_nat (lindex l)).

(** The fields of a bubbles [viewport.Model] the tab uses. *)
Record Viewport := mkViewport {
  vwidth : Z;
  vheight : Z;
  vcontent : string
}.

Definition viewport_New (w h : Z) : Viewport := mkViewport w h "".

Definition SetContent (s : string) (v : Viewport) : Viewport :=
  mkViewport (vwidth v) (vheight v) s.

(** The spinner of the loading message. *)
Record Spinner := mkSpinner { frame : nat }.

(** [RssFeedTab] (the fields [viewedItem], [content] and [readerFunc] are
    never read by [Update]). *)
Record RssFeedTab := mkRssFeedTab {
  title : string;
  index : Z;
  loaded : bool;
  loadingSpinner : Spinner;
  list_ : ListModel;
  isViewportOpen : bool;
  viewport : Viewport;
  selected : SelectedPane
}.

(** Go zero values of the widgets, before [loadTab] runs. *)
Definition zeroList : ListModel := mkListModel [] 0 0 0.
Definition zeroViewport : Viewport := mkViewport 0 0 "".

(** [New(title, index, readerFunc)]. *)
Definition New (t : string) (i : Z) : RssFeedTab :=
  mkRssFeedTab t i false (mkSpinner 0) zeroList false zeroViewport articlesList.

Definition set_list (l : ListModel) (r : RssFeedTab) : RssFeedTab :=
  mkRssFeedTab (title r) (index r) (loaded r) (loadingSpinner r) l
    (isViewportOpen r) (viewport r) (selected r).

Definition set_viewport (v : Viewport) (r : RssFeedTab) : RssFeedTab :=
  mkRssFeedTab (title r) (index r) (loaded r) (loadingSpinner r) (list_ r)
    (isViewportOpen r) v (selected r).

Definition set_spinner (s : Spinner) (r : RssFeedTab) : RssFeedTab :=
  mkRssFeedTab (title r) (index r) (loaded r) s (list_ r)
    (isViewportOpen r) (viewport r) (selected r).

Definition set_selected (p : SelectedPane) (r : RssFeedTab) : RssFeedTab :=
  mkRssFeedTab (title r) (index r) (loaded r) (loadingSpinner r) (list_ r)
    (isViewportOpen r) (viewport r) p.

Section Widgets.

(** [list.Model.Update], [viewport.Model.Update], [spinner.Model.Update] and
    [simpleList.ListItem.WrapDescription] of the libraries. *)
Variable list_Update : Msg -> ListModel -> ListModel * Cmd.
Variable viewport_Update : Msg -> Viewport -> Viewport * Cmd.
Variable spinner_Update : Msg -> Spinner -> Spinner * Cmd.
Variable WrapDescription : Z -> ListItem -> ListItem.

(** [loadTab]: the list and the viewport are built from the window size. *)
Definition loadTab (w : Window) (its : list ListItem) (r : RssFeedTab)
  : RssFeedTab :=
  let listWidth := Z.quot (WindowWidth w) 4 in
  let viewportWidth := WindowWidth w - listWidth - 4 in
  let its' := map (WrapDescription listWidth) its in
  mkRssFeedTab (title r) (index r) true (loadingSpinner r)
    (list_New its' listWidth (WindowHeight w - 5))
    (isViewportOpen r) (viewport_New viewportWidth (WindowHeight w - 5))
    (selected r).

(** The end of [Update]: the message goes to the selected pane. *)
Definition updatePane (msg : Msg) (r : RssFeedTab) : outcome (RssFeedTab * Cmd) :=
  match selected r with
  | articlesList =>
      if loaded r then
        let (l, cmd) := list_Update msg (list_ r) in Return (set_list l r, cmd)
      else Return (r, CmdNil)
  | articlesPreview =>
      let (v, cmd) := viewport_Update msg (viewport r) in
      Return (set_viewport v r, cmd)
  end.

(** [RssFeedTab.Update]. *)
Definition Update (w : Window) (msg : Msg) (r : RssFeedTab)
  : outcome (RssFeedTab * Cmd) :=
  match msg with
  | FetchSuccess _ its =>
      if negb (loaded r) && (0 <? WindowWidth w) && (0 <? WindowHeight w)
      then Return (loadTab w its r, CmdNil)
      else updatePane msg r
  | KeyMsg k =>
      if String.eqb k "enter" then
        if negb (loaded r) then Return (r, CmdNil)
        else
          match SelectedItem (list_ r) with
          | None => Panic "interface conversion: list.Item is nil"
          | Some it =>
              let r1 := set_viewport (SetContent (GetContent it) (viewport r)) r in
              Return (mkRssFeedTab (title r1) (index r1) (loaded r1)
                        (loadingSpinner r1) (list_ r1) true (viewport r1)
                        (selected r1), CmdNil)
          end
      else if String.eqb k "left" || String.eqb k "right" then
        if negb (isViewportOpen r) then Return (r, CmdNil)
        else
          match selected r with
          | articlesPreview => Return (set_selected articlesList r, CmdNil)
          | articlesList => Return (set_selected articlesPreview r, CmdNil)
          end
      else updatePane msg r
  | OtherMsg _ =>
      if negb (loaded r) then
        let (s, cmd) := spinner_Update msg (loadingSpinner r) in
        Return (set_spinner s r, cmd)
      else updatePane msg r
  end.


(** A sequence of messages delivered one at a time. *)
Fixpoint run (w : Window) (msgs : list Msg) (r : RssFeedTab)
  : outcome RssFeedTab :=
  match msgs with
  | [] => Return r
  | msg :: rest =>
      match Update w msg r with
      | Return (r', _) => run w rest r'
      | Panic e => Panic e
      end
  end.

(** The tabs a feed tab can become: built by [New], then updated. *)
Inductive reachable : RssFeedTab -> Prop :=
| reach_new t i : reachable (New t i)
| reach_step w msg r r' c :
    reachable r -> Update w msg r = Return (r', c) -> reachable r'.

End Widgets.

(** The line break ["\n"]. *)
Definition newline : string := String (Ascii.ascii_of_nat 10) EmptyString.

(** [strings.Count(s, "\n")]. *)
Fixpoint countNewlines (s : string) : Z :=
  match s with
  | EmptyString => 0
  | String c rest =>
      (if Ascii.eqb c (Ascii.ascii_of_nat 10) then 1 else 0) + countNewlines rest
  end.

(** [lipgloss.Height]: the number of lines of a rendered string. *)
Definition Height (s : string) : Z := countNewlines s + 1.

Fixpoint repeatString (s : string) (n : nat) : string :=
  match n with
  | O => EmptyString
  | S n' => String.append s (repeatString s n')
  end.

(** [strings.Repeat]: it panics on a negative count. *)
Definition Repeat (s : string) (n : Z) : outcome string :=
  if n <? 0 then Panic "strings: negative Repeat count"
  else Return (repeatString s (Z.to_nat n)).

Section Rendering.

(** The views of the widgets and the lipgloss styles: [spinner.View],
    the style [NewStyle().MarginLeft(3).MarginTop(1)], [list.View],
    [viewport.View], [style.FocusedStyle], [style.ColumnStyle] and
    [lipgloss.JoinHorizontal(lipgloss.Left, _, _)]. *)
Variable spinner_View : Spinner -> string.
Variable loadingStyle : string -> string.
Variable list_View : ListModel -> string.
Variable viewport_View : Viewport -> string.
Variable FocusedStyle : string -> string.
Variable ColumnStyle : string -> string.
Variable JoinHorizontal : string -> string -> string.

(** The loading message of [View]:
    [fmt.Sprintf("%s Loading feed %s", spinner.View(), title)], styled. *)
Definition loadingMessage (r : RssFeedTab) : string :=
  loadingStyle (String.append (spinner_View (loadingSpinner r))
                  (String.append " Loading feed " (title r))).

(** [RssFeedTab.View]. *)
Definition View (w : Window) (r : RssFeedTab) : outcome string :=
  if negb (loaded r) then
    let msg := loadingMessage r in
    match Repeat newline (WindowHeight w - 3 - Height msg) with
    | Return pad => Return (String.append msg pad)
    | Panic e => Panic e
    end
  else
    let rssList := list_View (list_ r) in
    let rssViewport := viewport_View (viewport r) in
    if negb (isViewportOpen r) then Return (FocusedStyle rssList)
    else
      match selected r with
      | articlesList =>
          Return (JoinHorizontal (FocusedStyle rssList) (ColumnStyle rssViewport))
      | articlesPreview =>
          Return (JoinHorizontal (ColumnStyle rssList) (FocusedStyle rssViewport))
      end.

End Rendering.

End FeedTab.

(** ** The category tab *)
Module CategoryTab.

(** Modelled from the spec: [simplelist.Model] (internal/model/simplelist,
    not in the sources), the list widget of the spec: an ordered sequence of
    items with a selection index, item replacement and an emptiness query. *)
Record SimpleList := mkSimpleList {
  sl_title : string;
  sl_height : Z;
  sl_items : list ListItem;
  sl_index : Z
}.

(** Modelled from the spec: [simplelist.New(colors, title, height, false)],
    an empty list with the cursor on the first position. *)
Definition simplelist_New (t : string) (h : Z) : SimpleList :=
  mkSimpleList t h [] 0.

(** Modelled from the spec: [SetItems] replaces the item set. *)
Definition SetItems (its : list ListItem) (l : SimpleList) : SimpleList :=
  mkSimpleList (sl_title l) (sl_height l) its (sl_index l).

(** Modelled from the spec: [IsEmpty], [Items], [Index], [SetIndex] and
    [SelectedItem] (the item under the selection index). *)
Definition IsEmpty (l : SimpleList) : bool :=
  match sl_items l with [] => true | _ => false end.

Definition Items (l : SimpleList) : list ListItem := sl_items l.

Definition Index (l : SimpleList) : Z := sl_index l.

Definition SetIndex (i : Z) (l : SimpleList) : SimpleList :=
  mkSimpleList (sl_title l) (sl_height l) (sl_items l) i.

Definition SelectedItem (l : SimpleList) : option ListItem :=
  if sl_index l <? 0 then None else nth_error (sl_items l) (Z.to_nat (sl_index l)).

(** [key.Binding]: the keys it matches. *)
Definition Binding := list string.

(** [key.Matches(msg, b)] for a key message, by its [String()]. *)
Definition Matches (k : string) (b : Binding) : bool :=
  existsb (String.eqb k) b.

(** [Keymap] and [DefaultKeymap]. *)
Record Keymap := mkKeymap {
  CloseTab : Binding;
  CycleTabs : Binding;
  SelectFeed : Binding;
  NewFeed : Binding;
  EditFeed : Binding;
  DeleteFeed : Binding
}.

Definition DefaultKeymap : Keymap :=
  mkKeymap ["c"; "ctrl+w"] ["tab"] ["enter"] ["n"; "ctrl+n"]
    ["e"; "ctrl+e"] ["d"; "ctrl+d"].

(** [Model] (colors, help and reader are not read by [Update]). *)
Record Model := mkModel {
  width : Z;
  height : Z;
  title : string;
  loaded : bool;
  list_ : SimpleList;
  keymap : Keymap
}.

(** The zero value of [simplelist.Model], before the first fetch. *)
Definition zeroSimpleList : SimpleList := mkSimpleList "" 0 [] 0.

(** [New(colors, width, height, title, reader)]. *)
Definition New (w h : Z) (t : string) : Model :=
  mkModel w h t false zeroSimpleList DefaultKeymap.

Definition set_list (l : SimpleList) (m : Model) : Model :=
  mkModel (width m) (height m) (title m) (loaded m) l (keymap m).

(** Modelled from the spec: [simplelist.Model.SetHeight] sets the height. *)
Definition SetHeight (h : Z) (l : SimpleList) : SimpleList :=
  mkSimpleList (sl_title l) h (sl_items l) (sl_index l).

(** [Model.SetSize]. *)
Definition SetSize (w h : Z) (m : Model) : Model :=
  mkModel w h (title m) (loaded m) (SetHeight h (list_ m)) (keymap m).

Section Widgets.

(** Modelled from the spec: [simplelist.Model.Update] (keyboard navigation)
    and [simplelist.Model.GetItem] (the lookup of an item by its shortcut
    key), left unspecified. *)
Variable simplelist_Update : Msg -> SimpleList -> SimpleList * Cmd.
Variable GetItem : string -> SimpleList -> option ListItem.

(** The end of [Update]: the message goes to the list. *)
Definition updateList (msg : Msg) (m : Model) : outcome (Model * Cmd) :=
  let (l, cmd) := simplelist_Update msg (list_ m) in Return (set_list l m, cmd).

(** [m.list.SelectedItem().FilterValue()]: a method call on a nil item
    panics. *)
Definition selectedFilterValue (l : SimpleList) : outcome string :=
  match SelectedItem l with
  | Some it => Return (FilterValue it)
  | None => Panic "nil pointer dereference"
  end.

(** [Model.Update]. *)
Definition Update (msg : Msg) (m : Model) : outcome (Model * Cmd) :=
  match msg with
  | FetchSuccess _ its =>
      let m1 :=
        if negb (loaded m) then
          mkModel (width m) (height m) (title m) true
            (simplelist_New (title m) (height m)) (keymap m)
        else m in
      Return (set_list (SetItems its (list_ m1)) m1, CmdNil)
  | KeyMsg k =>
      if negb (loaded m) then Return (m, CmdNil)
      else if Matches k (SelectFeed (keymap m)) then
        if negb (IsEmpty (list_ m)) then
          match selectedFilterValue (list_ m) with
          | Return v => Return (m, CmdNewTab v Feed)
          | Panic e => Panic e
          end
        else Return (m, CmdNil)
      else if Matches k (NewFeed (keymap m)) then
        Return (m, CmdNewItem BackendFeed true [title m] None)
      else if Matches k (EditFeed (keymap m)) then
        if IsEmpty (list_ m) then Return (m, CmdNil)
        else
          match SelectedItem (list_ m) with
          | Some item =>
              Return (m, CmdNewItem BackendFeed false
                           [title m; FilterValue item]
                           (Some [FilterValue item; Description item]))
          | None => Panic "interface conversion: list.Item is nil"
          end
      else if Matches k (DeleteFeed (keymap m)) then
        if negb (IsEmpty (list_ m)) then
          match selectedFilterValue (list_ m) with
          | Panic e => Panic e
          | Return delItemName =>
              let itemCount := Z.of_nat (length (Items (list_ m))) in
              let l :=
                if itemCount =? 1 then SetIndex 0 (list_ m)
                else SetIndex (Z.rem (Index (list_ m)) (itemCount - 1)) (list_ m) in
              Return (set_list l m, CmdDeleteItem BackendFeed delItemName)
          end
        else updateList msg m
      else
        match GetItem k (list_ m) with
        | Some item => Return (m, CmdNewTab (FilterValue item) Feed)
        | None => updateList msg m
        end
  | OtherMsg _ => updateList msg m
  end.

(** A sequence of messages delivered one at a time. *)
Fixpoint run (msgs : list Msg) (m : Model) : outcome Model :=
  match msgs with
  | [] => Return m
  | msg :: rest =>
      match Update msg m with
      | Return (m', _) => run rest m'
      | Panic e => Panic e
      end
  end.

(** The category tabs the container can hold: built by [New], then updated
    or resized. *)
Inductive reachable : Model -> Prop :=
| reach_new w h t : reachable (New w h t)
| reach_step msg m m' c :
    reachable m -> Update msg m = Return (m', c) -> reachable m'
| reach_resize w h m : reachable m -> reachable (SetSize w h m).

End Widgets.

(** [Model.View], with [simplelist.Model.View] left as a parameter. *)
Definition View (simplelist_View : SimpleList -> string) (m : Model) : string :=
  if negb (loaded m) then "Loading..." else simplelist_View (list_ m).

End CategoryTab.

(** ** Widgets used to run the tabs on concrete inputs

    A widget that ignores every message, and a description wrapper that leaves
    the item as it is. *)
Definition ignoreMsg {A : Type} (_ : Msg) (a : A) : A * Cmd := (a, CmdNil).

Definition keepItem (_ : Z) (i : ListItem) : ListItem := i.

(** Split an equation [Update w msg r = Return (r', c)] along the branches of
    [Update]. *)
Ltac split_update H :=
  unfold FeedTab.Update, FeedTab.updatePane, FeedTab.loadTab in H;
  repeat match type of H with
         | context [if ?b then _ else _] => destruct b eqn:?
         | context [match ?x with _ => _ end] =>
             lazymatch x with
             | Return _ => fail
             | Panic _ => fail
             | _ => destruct x eqn:?
             end
         end;
  try discriminate H;
  try (injection H as <- <-); simpl in *.

(** * Properties of the feed tab *)
Section FeedProofs.

Import FeedTab.

Variable list_Update : Msg -> ListModel -> ListModel * Cmd.
Variable viewport_Update : Msg -> Viewport -> Viewport * Cmd.
Variable spinner_Update : Msg -> Spinner -> Spinner * Cmd.
Variable WrapDescription : Z -> ListItem -> ListItem.

Local Abbreviation Update :=
  (FeedTab.Update list_Update viewport_Update spinner_Update WrapDescription).
Local Abbreviation reachable :=
  (FeedTab.reachable list_Update viewport_Update spinner_Update WrapDescription).

(** The feed tab before loading: no split view, the list pane selected. *)
Lemma not_loaded_collapsed r :
  reachable r -> loaded r = false ->
  selected r = articlesList /\ isViewportOpen r = false.
Proof.
  induction 1 as [t i | w msg r r' c Hr IH Hu]; intros Hl.
  - split; reflexivity.
  - destruct r as [t0 i0 l0 sp0 li0 o0 v0 s0]; simpl in *.
    destruct l0.
    + (* loaded is never reset *)
      exfalso. destruct msg as [t its | k | n]; split_update Hu; congruence.
    + destruct (IH eq_refl) as [-> ->].
      destruct msg as [t its | k | n]; split_update Hu;
        try congruence; split; reflexivity.
Qed.

End FeedProofs.
Section FeedTheorems.

Import FeedTab.

Variable list_Update : Msg -> ListModel -> ListModel * Cmd.
Variable viewport_Update : Msg -> Viewport -> Viewport * Cmd.
Variable spinner_Update : Msg -> Spinner -> Spinner * Cmd.
Variable WrapDescription : Z -> ListItem -> ListItem.

Local Abbreviation Update :=
  (FeedTab.Update list_Update viewport_Update spinner_Update WrapDescription).
Local Abbreviation reachable :=
  (FeedTab.reachable list_Update viewport_Update spinner_Update WrapDescription).
Local Abbreviation run :=
  (FeedTab.run list_Update viewport_Update spinner_Update WrapDescription).

(** The example of the spec: a (100, 30) window gives a list 25 wide and a
    viewport 71 wide, both 25 high. *)
Example feed_load_100_30 its :
  Update (mkWindow 100 30) (FetchSuccess "A" its) (New "A" 0) =
  Return (mkRssFeedTab "A" 0 true (mkSpinner 0)
            (mkListModel (map (WrapDescription 25) its) 0 25 25) false
            (mkViewport 71 25 "") articlesList, CmdNil).
Proof. reflexivity. Qed.

(** C1: a feed tab that is not loaded yet, receiving a fetch-success event
    while the window size is known (both dimensions nonzero; a terminal size
    is never negative), becomes loaded with the list pane selected and no
    split view; its list is [width / 4] wide, its viewport
    [width - width / 4 - 4] wide, both [height - 5] high.  With a zero
    dimension the event leaves the tab as it is. *)
Theorem feed_first_fetch_loads w t its r :
  reachable r -> loaded r = false ->
  0 <= WindowWidth w -> 0 <= WindowHeight w ->
  (WindowWidth w <> 0 -> WindowHeight w <> 0 ->
   exists r',
     Update w (FetchSuccess t its) r = Return (r', CmdNil) /\
     loaded r' = true /\ selected r' = articlesList /\
     isViewportOpen r' = false /\
     items (list_ r') = map (WrapDescription (WindowWidth w / 4)) its /\
     lwidth (list_ r') = WindowWidth w / 4 /\
     vwidth (viewport r') = WindowWidth w - WindowWidth w / 4 - 4 /\
     lheight (list_ r') = WindowHeight w - 5 /\
     vheight (viewport r') = WindowHeight w - 5) /\
  (WindowWidth w = 0 \/ WindowHeight w = 0 ->
   Update w (FetchSuccess t its) r = Return (r, CmdNil)).
Proof.
  intros Hr Hl HW HH.
  destruct (not_loaded_collapsed _ _ _ _ r Hr Hl) as [Hs Ho].
  destruct w as [W H]; simpl in *.
  split.
  - intros HW0 HH0.
    assert (Hq : Z.quot W 4 = W / 4) by (apply Z.quot_div_nonneg; lia).
    eexists. unfold FeedTab.Update, loadTab.
    rewrite Hl, (proj2 (Z.ltb_lt 0 W)), (proj2 (Z.ltb_lt 0 H)) by lia.
    simpl. rewrite Hs, Ho, Hq.
    split; [reflexivity|]. repeat split.
  - intros Hz. unfold FeedTab.Update, updatePane.
    assert (Hb : (0 <? W) && (0 <? H) = false).
    { destruct Hz as [-> | ->]; [reflexivity|]. apply andb_false_r. }
    rewrite Hl, Hs. simpl. rewrite Hb. reflexivity.
Qed.

(** C7: [loaded] and [isViewportOpen] are one-way latches: no event resets
    them. *)
Theorem feed_latches w msg r r' c :
  Update w msg r = Return (r', c) ->
  (loaded r = true -> loaded r' = true) /\
  (isViewportOpen r = true -> isViewportOpen r' = true).
Proof.
  intros Hu.
  destruct r as [t0 i0 l0 sp0 li0 o0 v0 s0]; simpl in *.
  destruct msg as [t its | k | n]; split_update Hu; split; intros; congruence.
Qed.

(** C8: "left" and "right" do nothing while the split view is closed, and
    toggle the focused pane once it is open. *)
Theorem feed_left_right_toggle w k r :
  k = "left" \/ k = "right" ->
  (isViewportOpen r = false -> Update w (KeyMsg k) r = Return (r, CmdNil)) /\
  (isViewportOpen r = true ->
   Update w (KeyMsg k) r =
   Return (set_selected (match selected r with
                         | articlesList => articlesPreview
                         | articlesPreview => articlesList
                         end) r, CmdNil)).
Proof.
  intros Hk.
  assert (Hd : String.eqb k "enter" = false /\
               (String.eqb k "left" || String.eqb k "right") = true)
    by (destruct Hk as [-> | ->]; split; reflexivity).
  destruct Hd as [He Hlr].
  unfold FeedTab.Update. rewrite He, Hlr.
  split; intros Ho; rewrite Ho; simpl; [reflexivity|].
  destruct (selected r); reflexivity.
Qed.

(** Enter on a loaded feed tab with a selected item shows that item's body in
    the viewport and opens the split view, keeping the focused pane; before
    loading it does nothing. *)
Lemma feed_enter_selected w r it :
  loaded r = true -> SelectedItem (list_ r) = Some it ->
  Update w (KeyMsg "enter") r =
  Return (mkRssFeedTab (title r) (index r) (loaded r) (loadingSpinner r)
            (list_ r) true (SetContent (GetContent it) (viewport r))
            (selected r), CmdNil).
Proof.
  intros Hl Hs. unfold FeedTab.Update. simpl. rewrite Hl, Hs. reflexivity.
Qed.

Lemma feed_enter_not_loaded w r :
  loaded r = false -> Update w (KeyMsg "enter") r = Return (r, CmdNil).
Proof. intros Hl. unfold FeedTab.Update. simpl. rewrite Hl. reflexivity. Qed.

(** C9: enter on a loaded feed tab whose list is empty has no selected item
    to show: the type assertion on the nil item panics instead of opening the
    split view. *)
Theorem feed_enter_empty_list_panics w r :
  loaded r = true -> items (list_ r) = [] ->
  exists e, Update w (KeyMsg "enter") r = Panic e.
Proof.
  intros Hl He. unfold FeedTab.Update, SelectedItem. simpl.
  rewrite Hl, He. simpl.
  destruct (lindex (list_ r) <? 0); [eexists; reflexivity|].
  destruct (Z.to_nat (lindex (list_ r))); eexists; reflexivity.
Qed.

(** C10: a feed that fetches no items, then an enter: the feed tab panics. *)
Theorem feed_empty_feed_enter_panics :
  exists e,
    run (mkWindow 100 30) [FetchSuccess "A" []; KeyMsg "enter"] (New "A" 0)
    = Panic e.
Proof. eexists. reflexivity. Qed.

Section ListKeepsItems.

(** The bubbles list's [Update] moves the cursor and the filter; it never
    changes the items. *)
Hypothesis list_Update_items : forall msg l, items (fst (list_Update msg l)) = items l.

(** C3: once loaded, a feed tab ignores later fetch-success events: it stays
    loaded and its list keeps its items. *)
Theorem feed_later_fetch_ignored w t its r :
  loaded r = true ->
  exists r' c,
    Update w (FetchSuccess t its) r = Return (r', c) /\
    loaded r' = true /\ items (list_ r') = items (list_ r).
Proof.
  intros Hl. unfold FeedTab.Update, updatePane. rewrite Hl. simpl.
  destruct (selected r).
  -
    pose proof (list_Update_items (FetchSuccess t its) (list_ r)) as Hi.
    destruct (list_Update (FetchSuccess t its) (list_ r)) as [l c] eqn:E.
    exists (set_list l r), c. simpl in *. repeat split; assumption.
  - destruct (viewport_Update (FetchSuccess t its) (viewport r)) as [v c].
    exists (set_viewport v r), c. repeat split; assumption.
Qed.

End ListKeepsItems.

End FeedTheorems.

(** * Properties of the category tab *)
Section CategoryTheorems.

Import CategoryTab.

Variable simplelist_Update : Msg -> SimpleList -> SimpleList * Cmd.
Variable GetItem : string -> SimpleList -> option ListItem.

Local Abbreviation Update := (CategoryTab.Update simplelist_Update GetItem).

Lemma set_list_same m : set_list (list_ m) m = m.
Proof. destruct m; reflexivity. Qed.

(** C4: every fetch-success event replaces the category tab's items; the
    first one builds the list and sets [loaded], later ones keep the list
    (and its cursor) and only replace its items. *)
Theorem category_fetch_replaces_items t its m :
  exists m',
    Update (FetchSuccess t its) m = Return (m', CmdNil) /\
    loaded m' = true /\ Items (list_ m') = its /\
    list_ m' = SetItems its (if loaded m then list_ m
                             else simplelist_New (title m) (height m)).
Proof.
  destruct m as [w h t0 l0 li km].
  unfold CategoryTab.Update. destruct l0; simpl; eexists; repeat split.
Qed.

(** The spec's example: two fetches with different items, the second
    replaces the first. *)
Example category_two_fetches a b :
  match Update (FetchSuccess "A" [a]) (New 80 24 "A") with
  | Return (m1, _) =>
      match Update (FetchSuccess "A" [b; a]) m1 with
      | Return (m2, _) => Items (list_ m1) = [a] /\ Items (list_ m2) = [b; a]
      | Panic _ => False
      end
  | Panic _ => False
  end.
Proof. simpl. split; reflexivity. Qed.

(** C5: Delete on a loaded category tab with [n] items and the cursor on
    item [i] requests the deletion of that item and moves the cursor to [0]
    when [n = 1], to [i mod (n - 1)] otherwise.  The key map is the one [New]
    installs. *)
Theorem category_delete_moves_cursor k m its i n :
  loaded m = true -> keymap m = DefaultKeymap ->
  k = "d" \/ k = "ctrl+d" ->
  Items (list_ m) = its -> Z.of_nat (length its) = n ->
  Index (list_ m) = i -> 0 <= i < n ->
  exists it,
    nth_error its (Z.to_nat i) = Some it /\
    Update (KeyMsg k) m =
    Return (set_list (SetIndex (if n =? 1 then 0 else i mod (n - 1)) (list_ m)) m,
            CmdDeleteItem BackendFeed (FilterValue it)).
Proof.
  intros Hl Hk Hkey Hits Hn Hi Hr.
  destruct (nth_error its (Z.to_nat i)) as [it|] eqn:Hnth.
  2:{ apply nth_error_None in Hnth. lia. }
  exists it. split; [reflexivity|].
  assert (Hm : Matches k (SelectFeed (keymap m)) = false /\
               Matches k (NewFeed (keymap m)) = false /\
               Matches k (EditFeed (keymap m)) = false /\
               Matches k (DeleteFeed (keymap m)) = true)
    by (rewrite Hk; destruct Hkey as [-> | ->]; repeat split).
  destruct Hm as (H1 & H2 & H3 & H4).
  unfold CategoryTab.Update, selectedFilterValue, SelectedItem.
  rewrite Hl, H1, H2, H3, H4.
  unfold Items, Index in *.
  assert (He : IsEmpty (list_ m) = false).
  { unfold IsEmpty. rewrite Hits. destruct its; simpl in *; [lia|reflexivity]. }
  rewrite He. simpl negb. cbv iota.
  rewrite Hits, Hi, Hn, (proj2 (Z.ltb_ge i 0)) by lia.
  rewrite Hnth. cbv iota.
  destruct (n =? 1) eqn:E1; [reflexivity|].
  apply Z.eqb_neq in E1.
  rewrite Z.rem_mod_nonneg by lia. reflexivity.
Qed.

Example category_delete_3_2 a b c :
  Update (KeyMsg "d")
    (mkModel 80 24 "A" true (mkSimpleList "A" 24 [a; b; c] 2) DefaultKeymap) =
  Return (mkModel 80 24 "A" true (mkSimpleList "A" 24 [a; b; c] 0) DefaultKeymap,
          CmdDeleteItem BackendFeed (FilterValue c)).
Proof. reflexivity. Qed.

Example category_delete_1 a :
  Update (KeyMsg "d")
    (mkModel 80 24 "A" true (mkSimpleList "A" 24 [a] 0) DefaultKeymap) =
  Return (mkModel 80 24 "A" true (mkSimpleList "A" 24 [a] 0) DefaultKeymap,
          CmdDeleteItem BackendFeed (FilterValue a)).
Proof. reflexivity. Qed.

Section EmptyList.

(** Modelled from the spec: the list widget is a navigable sequence; the
    delete keys are the tab's, the widget leaves an empty list as it is on
    them.  (Delete on an empty list has no early return in [Update]: the key
    falls through to the widget.) *)
Hypothesis simplelist_Update_delete_empty : forall k l,
  Matches k (DeleteFeed DefaultKeymap) = true -> IsEmpty l = true ->
  simplelist_Update (KeyMsg k) l = (l, CmdNil).

(** C6: on a loaded category tab with an empty list, Select, Edit and
    Delete return no command and leave the tab as it is. *)
Theorem category_empty_list_guards k m :
  loaded m = true -> keymap m = DefaultKeymap -> IsEmpty (list_ m) = true ->
  In k ["enter"; "e"; "ctrl+e"; "d"; "ctrl+d"] ->
  Update (KeyMsg k) m = Return (m, CmdNil).
Proof.
  intros Hl Hk He Hin.
  unfold CategoryTab.Update, updateList. rewrite Hl, Hk, He. simpl negb.
  cbv iota.
  simpl in Hin.
  destruct Hin as [<- | [<- | [<- | [<- | [<- | []]]]]]; simpl;
    try reflexivity;
    rewrite simplelist_Update_delete_empty by (reflexivity || assumption);
    rewrite set_list_same; reflexivity.
Qed.

End EmptyList.

End CategoryTheorems.

(** * Fetch-success events and titles *)

(** C2 (as the code has it): neither tab compares the event's title with its
    own.  A feed tab that is not loaded loads from a fetch-success event of
    any title once both window dimensions are positive; a category tab takes
    the items of every fetch-success event, whatever its title, exactly as it
    takes those of an event carrying its own title. *)
Theorem tabs_accept_any_title lu vu su wd slu gi w t its r m :
  FeedTab.loaded r = false -> 0 < WindowWidth w -> 0 < WindowHeight w ->
  FeedTab.Update lu vu su wd w (FetchSuccess t its) r =
    Return (FeedTab.loadTab wd w its r, CmdNil) /\
  CategoryTab.Update slu gi (FetchSuccess t its) m =
    CategoryTab.Update slu gi (FetchSuccess (CategoryTab.title m) its) m.
Proof.
  intros Hl HW HH. split.
  - unfold FeedTab.Update. rewrite Hl.
    rewrite (proj2 (Z.ltb_lt _ _) HW), (proj2 (Z.ltb_lt _ _) HH). reflexivity.
  - reflexivity.
Qed.

(** C2 refuted: a feed tab titled "A" and a category tab titled "A" both
    accept a fetch-success event titled "B". *)
Lemma tabs_accept_foreign_title :
  match FeedTab.Update ignoreMsg ignoreMsg ignoreMsg keepItem (mkWindow 100 30)
          (FetchSuccess "B" []) (FeedTab.New "A" 0) with
  | Return (r', _) => FeedTab.loaded r' = true
  | Panic _ => False
  end /\
  match CategoryTab.Update ignoreMsg (fun _ _ => None)
          (FetchSuccess "B" [mkListItem "x" "" ""]) (CategoryTab.New 80 24 "A") with
  | Return (m', _) =>
      CategoryTab.loaded m' = true /\
      CategoryTab.Items (CategoryTab.list_ m') = [mkListItem "x" "" ""]
  | Panic _ => False
  end.
Proof. split; [reflexivity | split; reflexivity]. Qed.

(** * Witnesses: the theorems applied on concrete tabs *)

Lemma feed_first_fetch_loads_witness :
  FeedTab.loaded (FeedTab.New "A" 0) = false /\
  exists r',
    FeedTab.Update ignoreMsg ignoreMsg ignoreMsg keepItem (mkWindow 100 30)
      (FetchSuccess "A" []) (FeedTab.New "A" 0) = Return (r', CmdNil) /\
    FeedTab.lwidth (FeedTab.list_ r') = 25 /\
    FeedTab.vwidth (FeedTab.viewport r') = 71.
Proof.
  split; [reflexivity|].
  pose proof (feed_first_fetch_loads ignoreMsg ignoreMsg ignoreMsg keepItem
                (mkWindow 100 30) "A" [] (FeedTab.New "A" 0)
                (FeedTab.reach_new _ _ _ _ "A" 0) eq_refl) as H.
  destruct (H ltac:(cbn; lia) ltac:(cbn; lia)) as [Hload _].
  destruct (Hload ltac:(cbn; lia) ltac:(cbn; lia))
    as (r' & Hu & _ & _ & _ & _ & Hw & Hv & _).
  exists r'. rewrite Hw, Hv. split; [exact Hu | split; reflexivity].
Defined.

Lemma feed_later_fetch_ignored_witness :
  exists r' c,
    FeedTab.Update ignoreMsg ignoreMsg ignoreMsg keepItem (mkWindow 100 30)
      (FetchSuccess "A" [])
      (FeedTab.loadTab keepItem (mkWindow 100 30) [mkListItem "x" "" ""]
         (FeedTab.New "A" 0)) = Return (r', c) /\
    FeedTab.loaded r' = true /\ FeedTab.items (FeedTab.list_ r') = [mkListItem "x" "" ""].
Proof.
  apply (feed_later_fetch_ignored ignoreMsg ignoreMsg ignoreMsg keepItem
           (fun _ _ => eq_refl) (mkWindow 100 30) "A" []
           (FeedTab.loadTab keepItem (mkWindow 100 30) [mkListItem "x" "" ""]
              (FeedTab.New "A" 0))).
  reflexivity.
Defined.

Lemma feed_latches_witness :
  FeedTab.Update ignoreMsg ignoreMsg ignoreMsg keepItem (mkWindow 100 30)
    (KeyMsg "enter")
    (FeedTab.loadTab keepItem (mkWindow 100 30) [mkListItem "x" "" "body"]
       (FeedTab.New "A" 0)) =
  Return (FeedTab.mkRssFeedTab "A" 0 true (FeedTab.mkSpinner 0)
            (FeedTab.mkListModel [mkListItem "x" "" "body"] 0 25 25) true
            (FeedTab.mkViewport 71 25 "body") FeedTab.articlesList, CmdNil) /\
  (true = true -> true = true) /\ (false = true -> true = true).
Proof.
  split; [reflexivity|].
  exact (feed_latches ignoreMsg ignoreMsg ignoreMsg keepItem (mkWindow 100 30)
           (KeyMsg "enter")
           (FeedTab.loadTab keepItem (mkWindow 100 30) [mkListItem "x" "" "body"]
              (FeedTab.New "A" 0))
           (FeedTab.mkRssFeedTab "A" 0 true (FeedTab.mkSpinner 0)
              (FeedTab.mkListModel [mkListItem "x" "" "body"] 0 25 25) true
              (FeedTab.mkViewport 71 25 "body") FeedTab.articlesList)
           CmdNil eq_refl).
Defined.

Lemma feed_left_right_toggle_witness :
  FeedTab.Update ignoreMsg ignoreMsg ignoreMsg keepItem (mkWindow 100 30)
    (KeyMsg "right") (FeedTab.New "A" 0) = Return (FeedTab.New "A" 0, CmdNil).
Proof.
  apply (proj1 (feed_left_right_toggle ignoreMsg ignoreMsg ignoreMsg keepItem
                  (mkWindow 100 30) "right" (FeedTab.New "A" 0)
                  (or_intror eq_refl))).
  reflexivity.
Defined.

Lemma feed_enter_empty_list_panics_witness :
  exists e,
    FeedTab.Update ignoreMsg ignoreMsg ignoreMsg keepItem (mkWindow 100 30)
      (KeyMsg "enter")
      (FeedTab.loadTab keepItem (mkWindow 100 30) [] (FeedTab.New "A" 0))
    = Panic e.
Proof.
  apply (feed_enter_empty_list_panics ignoreMsg ignoreMsg ignoreMsg keepItem
           (mkWindow 100 30)
           (FeedTab.loadTab keepItem (mkWindow 100 30) [] (FeedTab.New "A" 0)));
    reflexivity.
Defined.

Lemma category_delete_moves_cursor_witness :
  exists it,
    nth_error [mkListItem "a" "" ""; mkListItem "b" "" ""; mkListItem "c" "" ""]
      (Z.to_nat 2) = Some it /\
    CategoryTab.Update ignoreMsg (fun _ _ => None) (KeyMsg "d")
      (CategoryTab.mkModel 80 24 "A" true
         (CategoryTab.mkSimpleList "A" 24
            [mkListItem "a" "" ""; mkListItem "b" "" ""; mkListItem "c" "" ""] 2)
         CategoryTab.DefaultKeymap) =
    Return (CategoryTab.set_list
              (CategoryTab.SetIndex (if 3 =? 1 then 0 else 2 mod (3 - 1))
                 (CategoryTab.mkSimpleList "A" 24
                    [mkListItem "a" "" ""; mkListItem "b" "" ""; mkListItem "c" "" ""] 2))
              (CategoryTab.mkModel 80 24 "A" true
                 (CategoryTab.mkSimpleList "A" 24
                    [mkListItem "a" "" ""; mkListItem "b" "" ""; mkListItem "c" "" ""] 2)
                 CategoryTab.DefaultKeymap),
            CmdDeleteItem BackendFeed (FilterValue it)).
Proof.
  apply (category_delete_moves_cursor ignoreMsg (fun _ _ => None) "d"
           (CategoryTab.mkModel 80 24 "A" true
              (CategoryTab.mkSimpleList "A" 24
                 [mkListItem "a" "" ""; mkListItem "b" "" ""; mkListItem "c" "" ""] 2)
              CategoryTab.DefaultKeymap)
           [mkListItem "a" "" ""; mkListItem "b" "" ""; mkListItem "c" "" ""] 2 3);
    try reflexivity; try (left; reflexivity); lia.
Defined.

Lemma category_empty_list_guards_witness :
  CategoryTab.Update ignoreMsg (fun _ _ => None) (KeyMsg "d")
    (CategoryTab.mkModel 80 24 "A" true (CategoryTab.mkSimpleList "A" 24 [] 0)
       CategoryTab.DefaultKeymap) =
  Return (CategoryTab.mkModel 80 24 "A" true (CategoryTab.mkSimpleList "A" 24 [] 0)
            CategoryTab.DefaultKeymap, CmdNil).
Proof.
  apply (category_empty_list_guards ignoreMsg (fun _ _ => None)
           (fun _ _ _ _ => eq_refl));
    [reflexivity | reflexivity | reflexivity | simpl; tauto].
Defined.

Lemma tabs_accept_any_title_witness :
  FeedTab.Update ignoreMsg ignoreMsg ignoreMsg keepItem (mkWindow 100 30)
    (FetchSuccess "B" []) (FeedTab.New "A" 0) =
    Return (FeedTab.loadTab keepItem (mkWindow 100 30) [] (FeedTab.New "A" 0), CmdNil) /\
  CategoryTab.Update ignoreMsg (fun _ _ => None) (FetchSuccess "B" [])
    (CategoryTab.New 80 24 "A") =
  CategoryTab.Update ignoreMsg (fun _ _ => None) (FetchSuccess "A" [])
    (CategoryTab.New 80 24 "A").
Proof.
  apply (tabs_accept_any_title ignoreMsg ignoreMsg ignoreMsg keepItem
           ignoreMsg (fun _ _ => None) (mkWindow 100 30) "B" []
           (FeedTab.New "A" 0) (CategoryTab.New 80 24 "A"));
    simpl; [reflexivity | lia | lia].
Defined.

(** * Further properties of the feed tab *)
Section FeedExtra.

Import FeedTab.

Variable list_Update : Msg -> ListModel -> ListModel * Cmd.
Variable viewport_Update : Msg -> Viewport -> Viewport * Cmd.
Variable spinner_Update : Msg -> Spinner -> Spinner * Cmd.
Variable WrapDescription : Z -> ListItem -> ListItem.

Local Abbreviation Update :=
  (FeedTab.Update list_Update viewport_Update spinner_Update WrapDescription).
Local Abbreviation reachable :=
  (FeedTab.reachable list_Update viewport_Update spinner_Update WrapDescription).
Local Abbreviation run :=
  (FeedTab.run list_Update viewport_Update spinner_Update WrapDescription).

(** The split view only opens on a loaded tab, and while it is closed the
    list pane has the focus. *)
Theorem feed_reachable_panes r :
  reachable r ->
  (isViewportOpen r = true -> loaded r = true) /\
  (isViewportOpen r = false -> selected r = articlesList).
Proof.
  induction 1 as [t i | w msg r r' c Hr IH Hu].
  - split; intros; [discriminate | reflexivity].
  - destruct r as [t0 i0 l0 sp0 li0 o0 v0 s0]; simpl in *.
    destruct IH as [IH1 IH2].
    destruct l0, o0, s0; destruct msg as [t its | k | n]; split_update Hu;
      split; intros; try reflexivity; try congruence; auto.
Qed.

(** [Update] never changes the tab's title or its index. *)
Theorem feed_update_keeps_identity w msg r r' c :
  Update w msg r = Return (r', c) -> title r' = title r /\ index r' = index r.
Proof.
  intros Hu. destruct r as [t0 i0 l0 sp0 li0 o0 v0 s0]; simpl in *.
  destruct msg as [t its | k | n]; split_update Hu; split; reflexivity.
Qed.

(** On a loaded tab, every message other than the keys "enter", "left" and
    "right" (a later fetch-success included) goes to the focused pane only:
    to the list while it has the focus, to the viewport otherwise. *)
Theorem feed_loaded_routing w msg r :
  loaded r = true ->
  match msg with
  | KeyMsg k => k <> "enter" /\ k <> "left" /\ k <> "right"
  | _ => True
  end ->
  Update w msg r =
  match selected r with
  | articlesList =>
      let (l, c) := list_Update msg (list_ r) in Return (set_list l r, c)
  | articlesPreview =>
      let (v, c) := viewport_Update msg (viewport r) in Return (set_viewport v r, c)
  end.
Proof.
  intros Hl Hk. unfold FeedTab.Update, updatePane.
  destruct msg as [t its | k | n].
  - rewrite Hl. reflexivity.
  - destruct Hk as (H1 & H2 & H3).
    apply String.eqb_neq in H1, H2, H3. rewrite H1, H2, H3. simpl.
    rewrite Hl. reflexivity.
  - rewrite Hl. reflexivity.
Qed.

(** Before loading, with the split view closed and the list focused, no
    sequence of messages without a fetch-success loads the tab or makes it
    panic, and its list and viewport stay untouched. *)
Theorem feed_no_fetch_stays_loading w msgs r :
  loaded r = false -> isViewportOpen r = false -> selected r = articlesList ->
  (forall t its, ~ In (FetchSuccess t its) msgs) ->
  exists r',
    run w msgs r = Return r' /\ loaded r' = false /\
    list_ r' = list_ r /\ viewport r' = viewport r /\
    isViewportOpen r' = false /\ selected r' = articlesList.
Proof.
  revert r. induction msgs as [|msg rest IH]; intros r Hl Ho Hs Hf.
  - exists r. repeat split; assumption.
  - assert (Hrest : forall t its, ~ In (FetchSuccess t its) rest)
      by (intros t its Hin; apply (Hf t its); right; exact Hin).
    destruct r as [t0 i0 l0 sp0 li0 o0 v0 s0]; simpl in Hl, Ho, Hs; subst.
    destruct msg as [t its | k | n].
    + exfalso. apply (Hf t its). left. reflexivity.
    + simpl. unfold FeedTab.Update, updatePane; simpl.
      destruct (String.eqb k "enter"); [apply IH; auto|].
      destruct (String.eqb k "left" || String.eqb k "right"); apply IH; auto.
    + simpl. unfold FeedTab.Update; simpl.
      destruct (spinner_Update (OtherMsg n) sp0) as [sp c].
      apply IH; auto.
Qed.


End FeedExtra.

(** * The loading view of the feed tab *)

Lemma countNewlines_append a b :
  FeedTab.countNewlines (String.append a b) =
  FeedTab.countNewlines a + FeedTab.countNewlines b.
Proof. induction a as [|c a IH]; simpl; [reflexivity|]. rewrite IH. lia. Qed.

Lemma countNewlines_nonneg s : 0 <= FeedTab.countNewlines s.
Proof.
  induction s as [|c s IH]; simpl; [lia|].
  destruct (Ascii.eqb c (Ascii.ascii_of_nat 10)); lia.
Qed.

Lemma countNewlines_repeat n :
  FeedTab.countNewlines (FeedTab.repeatString FeedTab.newline n) = Z.of_nat n.
Proof.
  induction n as [|n IH]; [reflexivity|].
  cbn [FeedTab.repeatString]. rewrite countNewlines_append, IH.
  assert (H1 : FeedTab.countNewlines FeedTab.newline = 1) by reflexivity.
  rewrite H1. lia.
Qed.

Section FeedView.

Import FeedTab.

Variable spinner_View : Spinner -> string.
Variable loadingStyle : string -> string.
Variable list_View : ListModel -> string.
Variable viewport_View : Viewport -> string.
Variable FocusedStyle : string -> string.
Variable ColumnStyle : string -> string.
Variable JoinHorizontal : string -> string -> string.

Local Abbreviation View :=
  (FeedTab.View spinner_View loadingStyle list_View viewport_View FocusedStyle
     ColumnStyle JoinHorizontal).
Local Abbreviation loadingMessage := (FeedTab.loadingMessage spinner_View loadingStyle).

(** Before loading, the view is the loading message padded with line breaks
    to exactly [WindowHeight - 3] lines when the window is tall enough for
    it; when it is not, [strings.Repeat] gets a negative count and the view
    panics. *)
Theorem feed_loading_view_height w r :
  loaded r = false ->
  (3 + Height (loadingMessage r) <= WindowHeight w ->
   exists pad,
     View w r = Return (String.append (loadingMessage r) pad) /\
     Height (String.append (loadingMessage r) pad) = WindowHeight w - 3) /\
  (WindowHeight w < 3 + Height (loadingMessage r) ->
   exists e, View w r = Panic e).
Proof.
  intros Hl. unfold FeedTab.View, Repeat. rewrite Hl. simpl negb. cbv iota zeta.
  split; intros Hh.
  - rewrite (proj2 (Z.ltb_ge _ _)) by lia.
    eexists. split; [reflexivity|].
    unfold Height in *. rewrite countNewlines_append, countNewlines_repeat.
    rewrite Z2Nat.id by lia. lia.
  - rewrite (proj2 (Z.ltb_lt _ _)) by lia. eexists. reflexivity.
Qed.

(** Before loading, the view panics whenever the window is less than four
    lines high (a window whose height is still 0 included), whatever the
    spinner and the title. *)
Theorem feed_loading_view_panics_small w r :
  loaded r = false -> WindowHeight w < 4 -> exists e, View w r = Panic e.
Proof.
  intros Hl Hh.
  pose proof (countNewlines_nonneg (loadingMessage r)).
  unfold FeedTab.View, Repeat. rewrite Hl. simpl negb. cbv iota zeta.
  rewrite (proj2 (Z.ltb_lt _ _)) by (unfold Height; lia).
  eexists. reflexivity.
Qed.

End FeedView.

(** Split an equation [CategoryTab.Update msg m = Return (m', c)] along the
    branches of [Update]. *)
Ltac split_cat_update H :=
  unfold CategoryTab.Update, CategoryTab.updateList,
    CategoryTab.selectedFilterValue in H;
  repeat match type of H with
         | context [if ?b then _ else _] => destruct b eqn:?
         | context [match ?x with _ => _ end] =>
             lazymatch x with
             | Return _ => fail
             | Panic _ => fail
             | _ => destruct x eqn:?
             end
         end;
  try discriminate H;
  try (injection H as <- <-); simpl in *.

(** * Further properties of the category tab *)
Section CategoryExtra.

Import CategoryTab.

Variable simplelist_Update : Msg -> SimpleList -> SimpleList * Cmd.
Variable GetItem : string -> SimpleList -> option ListItem.

Local Abbreviation Update := (CategoryTab.Update simplelist_Update GetItem).
Local Abbreviation reachable := (CategoryTab.reachable simplelist_Update GetItem).
Local Abbreviation run := (CategoryTab.run simplelist_Update GetItem).

(** [Update] never changes the tab's title, size or key map. *)
Theorem category_update_frame msg m m' c :
  Update msg m = Return (m', c) ->
  title m' = title m /\ width m' = width m /\ height m' = height m /\
  keymap m' = keymap m.
Proof.
  intros Hu. destruct m as [w h t l li km]; simpl in *.
  destruct msg as [tt its | k | n]; split_cat_update Hu; repeat split.
Qed.

(** Every category tab the container holds uses the default key map. *)
Theorem category_reachable_keymap m :
  reachable m -> keymap m = DefaultKeymap.
Proof.
  induction 1 as [w h t | msg m m' c Hr IH Hu | w h m Hr IH].
  - reflexivity.
  - destruct m as [w h t l li km]; simpl in *.
    destruct msg as [tt its | k | n]; split_cat_update Hu; assumption.
  - exact IH.
Qed.

(** On a loaded tab, "n" and "ctrl+n" request a new feed in the tab's
    category, empty list or not, and leave the tab as it is. *)
Theorem category_new_feed k m :
  loaded m = true -> keymap m = DefaultKeymap -> k = "n" \/ k = "ctrl+n" ->
  Update (KeyMsg k) m = Return (m, CmdNewItem BackendFeed true [title m] None).
Proof.
  intros Hl Hk Hkey. unfold CategoryTab.Update. rewrite Hl, Hk.
  destruct Hkey as [-> | ->]; reflexivity.
Qed.

(** On a loaded tab with a selected item, "enter" asks the container to open
    a feed tab for that item, and "e" / "ctrl+e" request its edition with the
    path [category; item] and the item's name and description; the tab itself
    is left as it is. *)
Theorem category_select_edit k m it :
  loaded m = true -> keymap m = DefaultKeymap ->
  SelectedItem (list_ m) = Some it ->
  (k = "enter" -> Update (KeyMsg k) m = Return (m, CmdNewTab (FilterValue it) Feed)) /\
  (k = "e" \/ k = "ctrl+e" ->
   Update (KeyMsg k) m =
   Return (m, CmdNewItem BackendFeed false [title m; FilterValue it]
                (Some [FilterValue it; Description it]))).
Proof.
  intros Hl Hk Hs.
  assert (He : IsEmpty (list_ m) = false).
  { unfold SelectedItem, IsEmpty in *.
    destruct (sl_items (list_ m)); [|reflexivity].
    destruct (sl_index (list_ m) <? 0); [discriminate|].
    destruct (Z.to_nat (sl_index (list_ m))); discriminate. }
  unfold CategoryTab.Update, selectedFilterValue. rewrite Hl, Hk, He, Hs.
  split; [intros -> | intros [-> | ->]]; reflexivity.
Qed.

(** Delete never removes the item itself (the backend does): the list keeps
    its items, and the cursor is moved inside the list the deletion will
    leave, to 0 for a single item and below [n - 1] for [n > 1] items. *)
Theorem category_delete_in_bounds k m :
  loaded m = true -> keymap m = DefaultKeymap -> k = "d" \/ k = "ctrl+d" ->
  0 <= Index (list_ m) < Z.of_nat (length (Items (list_ m))) ->
  exists m' c,
    Update (KeyMsg k) m = Return (m', c) /\
    Items (list_ m') = Items (list_ m) /\
    (length (Items (list_ m)) = 1%nat -> Index (list_ m') = 0) /\
    ((1 < length (Items (list_ m)))%nat ->
     0 <= Index (list_ m') < Z.of_nat (length (Items (list_ m))) - 1).
Proof.
  intros Hl Hk Hkey Hr.
  assert (Hm : Matches k (SelectFeed (keymap m)) = false /\
               Matches k (NewFeed (keymap m)) = false /\
               Matches k (EditFeed (keymap m)) = false /\
               Matches k (DeleteFeed (keymap m)) = true)
    by (rewrite Hk; destruct Hkey as [-> | ->]; repeat split).
  destruct Hm as (H1 & H2 & H3 & H4).
  unfold Items, Index in *.
  destruct (sl_items (list_ m)) as [|x rest] eqn:Hits; [simpl in Hr; lia|].
  destruct (nth_error (x :: rest) (Z.to_nat (sl_index (list_ m)))) as [it|] eqn:Hnth.
  2:{ apply nth_error_None in Hnth. lia. }
  assert (He : IsEmpty (list_ m) = false) by (unfold IsEmpty; rewrite Hits; reflexivity).
  unfold CategoryTab.Update, selectedFilterValue, SelectedItem.
  rewrite Hl, H1, H2, H3, H4, He. simpl negb. cbv iota.
  unfold Items, Index. rewrite Hits, (proj2 (Z.ltb_ge _ 0)) by lia.
  rewrite Hnth. cbv iota.
  remember (Z.of_nat (length (x :: rest))) as n eqn:En.
  destruct (n =? 1) eqn:E.
  - apply Z.eqb_eq in E.
    do 2 eexists. split; [reflexivity|]. simpl. rewrite Hits.
    split; [reflexivity|]. split; intros; [reflexivity | simpl in *; lia].
  - apply Z.eqb_neq in E.
    do 2 eexists. split; [reflexivity|]. simpl. rewrite Hits.
    split; [reflexivity|]. split; intros Hn; [simpl in *; lia|].
    rewrite Z.rem_mod_nonneg by lia. apply Z.mod_pos_bound. lia.
Qed.

End CategoryExtra.

Section CategoryDispatch.

Import CategoryTab.

Variable simplelist_Update : Msg -> SimpleList -> SimpleList * Cmd.
Variable GetItem : string -> SimpleList -> option ListItem.

Local Abbreviation Update := (CategoryTab.Update simplelist_Update GetItem).
Local Abbreviation run := (CategoryTab.run simplelist_Update GetItem).

(** On a loaded tab, a key bound to none of Select, New, Edit and Delete
    (the close and cycle keys of the key map included) opens the feed whose
    shortcut it is, if an item has it; otherwise it goes to the list. *)
Theorem category_shortcut_dispatch k m :
  loaded m = true -> keymap m = DefaultKeymap ->
  ~ In k ["enter"; "n"; "ctrl+n"; "e"; "ctrl+e"; "d"; "ctrl+d"] ->
  Update (KeyMsg k) m =
  match GetItem k (list_ m) with
  | Some it => Return (m, CmdNewTab (FilterValue it) Feed)
  | None =>
      let (l, c) := simplelist_Update (KeyMsg k) (list_ m) in
      Return (set_list l m, c)
  end.
Proof.
  intros Hl Hk Hin.
  assert (Hm : forall b, incl b ["enter"; "n"; "ctrl+n"; "e"; "ctrl+e"; "d"; "ctrl+d"] ->
                         Matches k b = false).
  { intros b Hb. unfold Matches. apply Bool.not_true_is_false. intros Hx.
    apply existsb_exists in Hx. destruct Hx as (x & Hx & Heq).
    apply String.eqb_eq in Heq. subst x. exact (Hin (Hb _ Hx)). }
  unfold CategoryTab.Update, updateList. rewrite Hl, Hk. simpl negb. cbv iota.
  rewrite !Hm by (cbv; intuition).
  reflexivity.
Qed.

(** Before the first fetch-success, no sequence of other messages loads the
    tab, makes it panic or changes what it shows: the view stays
    "Loading...". *)
Theorem category_no_fetch_stays_loading simplelist_View msgs m :
  loaded m = false ->
  (forall t its, ~ In (FetchSuccess t its) msgs) ->
  exists m',
    run msgs m = Return m' /\ loaded m' = false /\
    View simplelist_View m' = "Loading..." /\ title m' = title m.
Proof.
  revert m. induction msgs as [|msg rest IH]; intros m Hl Hf.
  - exists m. unfold View. rewrite Hl. repeat split; assumption.
  - assert (Hrest : forall t its, ~ In (FetchSuccess t its) rest)
      by (intros t its Hin; apply (Hf t its); right; exact Hin).
    destruct m as [w h t l li km]; simpl in Hl; subst l.
    destruct msg as [tt its | k | n].
    + exfalso. apply (Hf tt its). left. reflexivity.
    + simpl. apply IH; auto.
    + simpl. unfold CategoryTab.updateList; simpl.
      destruct (simplelist_Update (OtherMsg n) li) as [li' c].
      apply IH; auto.
Qed.

(** A tab resized before its first fetch builds its list with the new
    height when the items arrive. *)
Theorem category_resize_then_fetch w h t its m :
  loaded m = false ->
  Update (FetchSuccess t its) (SetSize w h m) =
  Return (mkModel w h (title m) true
            (mkSimpleList (title m) h its 0) (keymap m), CmdNil).
Proof. intros Hl. unfold CategoryTab.Update, SetSize. simpl. rewrite Hl. reflexivity. Qed.

End CategoryDispatch.

(** * Witnesses of the further properties *)

Lemma feed_reachable_panes_witness :
  (FeedTab.isViewportOpen (FeedTab.New "A" 0) = true ->
   FeedTab.loaded (FeedTab.New "A" 0) = true) /\
  (FeedTab.isViewportOpen (FeedTab.New "A" 0) = false ->
   FeedTab.selected (FeedTab.New "A" 0) = FeedTab.articlesList).
Proof.
  exact (feed_reachable_panes ignoreMsg ignoreMsg ignoreMsg keepItem
           (FeedTab.New "A" 0) (FeedTab.reach_new _ _ _ _ "A" 0)).
Defined.

Lemma feed_update_keeps_identity_witness :
  FeedTab.title (FeedTab.loadTab keepItem (mkWindow 100 30) [] (FeedTab.New "A" 7)) = "A" /\
  FeedTab.index (FeedTab.loadTab keepItem (mkWindow 100 30) [] (FeedTab.New "A" 7)) = 7.
Proof.
  exact (feed_update_keeps_identity ignoreMsg ignoreMsg ignoreMsg keepItem
           (mkWindow 100 30) (FetchSuccess "A" []) (FeedTab.New "A" 7)
           (FeedTab.loadTab keepItem (mkWindow 100 30) [] (FeedTab.New "A" 7))
           CmdNil eq_refl).
Defined.

Lemma feed_loaded_routing_witness :
  FeedTab.Update ignoreMsg ignoreMsg ignoreMsg keepItem (mkWindow 100 30)
    (KeyMsg "down")
    (FeedTab.loadTab keepItem (mkWindow 100 30) [] (FeedTab.New "A" 0)) =
  Return (FeedTab.loadTab keepItem (mkWindow 100 30) [] (FeedTab.New "A" 0), CmdNil).
Proof.
  rewrite (feed_loaded_routing ignoreMsg ignoreMsg ignoreMsg keepItem
             (mkWindow 100 30) (KeyMsg "down")
             (FeedTab.loadTab keepItem (mkWindow 100 30) [] (FeedTab.New "A" 0))
             eq_refl).
  - reflexivity.
  - repeat split; discriminate.
Defined.

Lemma feed_no_fetch_stays_loading_witness :
  exists r',
    FeedTab.run ignoreMsg ignoreMsg ignoreMsg keepItem (mkWindow 0 0)
      [KeyMsg "enter"; OtherMsg 0; KeyMsg "right"] (FeedTab.New "A" 0) = Return r' /\
    FeedTab.loaded r' = false /\
    FeedTab.list_ r' = FeedTab.zeroList /\ FeedTab.viewport r' = FeedTab.zeroViewport /\
    FeedTab.isViewportOpen r' = false /\ FeedTab.selected r' = FeedTab.articlesList.
Proof.
  apply (feed_no_fetch_stays_loading ignoreMsg ignoreMsg ignoreMsg keepItem
           (mkWindow 0 0) [KeyMsg "enter"; OtherMsg 0; KeyMsg "right"]
           (FeedTab.New "A" 0)); try reflexivity.
  intros t its Hin. simpl in Hin.
  destruct Hin as [H | [H | [H | []]]]; discriminate.
Defined.

Lemma feed_loading_view_height_witness :
  exists pad,
    FeedTab.View (fun _ => "*") (fun s => s) (fun _ => "") (fun _ => "")
      (fun s => s) (fun s => s) String.append (mkWindow 100 10) (FeedTab.New "A" 0)
    = Return (String.append "* Loading feed A" pad) /\
    FeedTab.Height (String.append "* Loading feed A" pad) = 7.
Proof.
  apply (proj1 (feed_loading_view_height (fun _ => "*") (fun s => s) (fun _ => "")
                  (fun _ => "") (fun s => s) (fun s => s) String.append
                  (mkWindow 100 10) (FeedTab.New "A" 0) eq_refl)).
  vm_compute. discriminate.
Defined.

Lemma feed_loading_view_panics_small_witness :
  exists e,
    FeedTab.View (fun _ => "*") (fun s => s) (fun _ => "") (fun _ => "")
      (fun s => s) (fun s => s) String.append (mkWindow 0 0) (FeedTab.New "A" 0)
    = Panic e.
Proof.
  apply (feed_loading_view_panics_small (fun _ => "*") (fun s => s) (fun _ => "")
           (fun _ => "") (fun s => s) (fun s => s) String.append
           (mkWindow 0 0) (FeedTab.New "A" 0) eq_refl).
  simpl. lia.
Defined.

Lemma category_update_frame_witness :
  CategoryTab.title (CategoryTab.New 80 24 "A") = "A" /\
  CategoryTab.width (CategoryTab.New 80 24 "A") = 80 /\
  CategoryTab.height (CategoryTab.New 80 24 "A") = 24 /\
  CategoryTab.keymap (CategoryTab.New 80 24 "A") = CategoryTab.DefaultKeymap.
Proof.
  exact (category_update_frame ignoreMsg (fun _ _ => None) (KeyMsg "x")
           (CategoryTab.New 80 24 "A") (CategoryTab.New 80 24 "A") CmdNil eq_refl).
Defined.

Lemma category_reachable_keymap_witness :
  CategoryTab.keymap (CategoryTab.SetSize 100 30 (CategoryTab.New 80 24 "A")) =
  CategoryTab.DefaultKeymap.
Proof.
  exact (category_reachable_keymap ignoreMsg (fun _ _ => None)
           (CategoryTab.SetSize 100 30 (CategoryTab.New 80 24 "A"))
           (CategoryTab.reach_resize _ _ 100 30 _ (CategoryTab.reach_new _ _ 80 24 "A"))).
Defined.

Lemma category_new_feed_witness :
  CategoryTab.Update ignoreMsg (fun _ _ => None) (KeyMsg "n")
    (CategoryTab.mkModel 80 24 "A" true (CategoryTab.mkSimpleList "A" 24 [] 0)
       CategoryTab.DefaultKeymap) =
  Return (CategoryTab.mkModel 80 24 "A" true (CategoryTab.mkSimpleList "A" 24 [] 0)
            CategoryTab.DefaultKeymap, CmdNewItem BackendFeed true ["A"] None).
Proof.
  apply (category_new_feed ignoreMsg (fun _ _ => None) "n"
           (CategoryTab.mkModel 80 24 "A" true (CategoryTab.mkSimpleList "A" 24 [] 0)
              CategoryTab.DefaultKeymap) eq_refl eq_refl (or_introl eq_refl)).
Defined.

Lemma category_select_edit_witness :
  CategoryTab.Update ignoreMsg (fun _ _ => None) (KeyMsg "enter")
    (CategoryTab.mkModel 80 24 "A" true
       (CategoryTab.mkSimpleList "A" 24 [mkListItem "x" "d" ""] 0)
       CategoryTab.DefaultKeymap) =
  Return (CategoryTab.mkModel 80 24 "A" true
            (CategoryTab.mkSimpleList "A" 24 [mkListItem "x" "d" ""] 0)
            CategoryTab.DefaultKeymap, CmdNewTab "x" Feed).
Proof.
  apply (proj1 (category_select_edit ignoreMsg (fun _ _ => None) "enter"
                  (CategoryTab.mkModel 80 24 "A" true
                     (CategoryTab.mkSimpleList "A" 24 [mkListItem "x" "d" ""] 0)
                     CategoryTab.DefaultKeymap)
                  (mkListItem "x" "d" "") eq_refl eq_refl eq_refl) eq_refl).
Defined.

Lemma category_delete_in_bounds_witness :
  exists m' c,
    CategoryTab.Update ignoreMsg (fun _ _ => None) (KeyMsg "d")
      (CategoryTab.mkModel 80 24 "A" true
         (CategoryTab.mkSimpleList "A" 24
            [mkListItem "a" "" ""; mkListItem "b" "" ""; mkListItem "c" "" ""] 2)
         CategoryTab.DefaultKeymap) = Return (m', c) /\
    CategoryTab.Items (CategoryTab.list_ m') =
      [mkListItem "a" "" ""; mkListItem "b" "" ""; mkListItem "c" "" ""] /\
    (3%nat = 1%nat -> CategoryTab.Index (CategoryTab.list_ m') = 0) /\
    ((1 < 3)%nat -> 0 <= CategoryTab.Index (CategoryTab.list_ m') < 3 - 1).
Proof.
  apply (category_delete_in_bounds ignoreMsg (fun _ _ => None) "d"
           (CategoryTab.mkModel 80 24 "A" true
              (CategoryTab.mkSimpleList "A" 24
                 [mkListItem "a" "" ""; mkListItem "b" "" ""; mkListItem "c" "" ""] 2)
              CategoryTab.DefaultKeymap) eq_refl eq_refl (or_introl eq_refl)).
  simpl. lia.
Defined.

Lemma category_shortcut_dispatch_witness :
  CategoryTab.Update ignoreMsg (fun k _ => if String.eqb k "1" then Some (mkListItem "x" "" "") else None)
    (KeyMsg "1")
    (CategoryTab.mkModel 80 24 "A" true (CategoryTab.mkSimpleList "A" 24 [] 0)
       CategoryTab.DefaultKeymap) =
  Return (CategoryTab.mkModel 80 24 "A" true (CategoryTab.mkSimpleList "A" 24 [] 0)
            CategoryTab.DefaultKeymap, CmdNewTab "x" Feed).
Proof.
  rewrite (category_shortcut_dispatch ignoreMsg
             (fun k _ => if String.eqb k "1" then Some (mkListItem "x" "" "") else None)
             "1" (CategoryTab.mkModel 80 24 "A" true (CategoryTab.mkSimpleList "A" 24 [] 0)
                    CategoryTab.DefaultKeymap) eq_refl eq_refl).
  - reflexivity.
  - simpl. intuition discriminate.
Defined.

Lemma category_no_fetch_stays_loading_witness :
  exists m',
    CategoryTab.run ignoreMsg (fun _ _ => None) [KeyMsg "enter"; OtherMsg 0]
      (CategoryTab.New 80 24 "A") = Return m' /\
    CategoryTab.loaded m' = false /\
    CategoryTab.View (fun _ => "list") m' = "Loading..." /\ CategoryTab.title m' = "A".
Proof.
  apply (category_no_fetch_stays_loading ignoreMsg (fun _ _ => None) (fun _ => "list")
           [KeyMsg "enter"; OtherMsg 0] (CategoryTab.New 80 24 "A") eq_refl).
  intros t its Hin. simpl in Hin.
  destruct Hin as [H | [H | []]]; discriminate.
Defined.

Lemma category_resize_then_fetch_witness :
  CategoryTab.Update ignoreMsg (fun _ _ => None) (FetchSuccess "A" [])
    (CategoryTab.SetSize 100 30 (CategoryTab.New 80 24 "A")) =
  Return (CategoryTab.mkModel 100 30 "A" true (CategoryTab.mkSimpleList "A" 30 [] 0)
            CategoryTab.DefaultKeymap, CmdNil).
Proof.
  exact (category_resize_then_fetch ignoreMsg (fun _ _ => None) 100 30 "A" []
           (CategoryTab.New 80 24 "A") eq_refl).
Defined.
